(** * skypy.gravitational_wave.merger_rate

    Shallow embedding of [abadie_tableIII_merger_rates], the one function of
    the module: a table of merger-rate coefficients (Abadie et al. 2010,
    Table III), a subscription of that table and a multiplication of the
    result with an array of luminosities, tagged with the unit year^-1.

    Python objects are modelled as the module uses them:
    - [str] and [tuple]-of-[str] dictionary keys as [key];
    - the [int] and [float] literals of the table as [number];
    - a [dict] as a [gmap] over [key];
    - a one-dimensional float64 [numpy.ndarray] as a list of binary64 floats;
    - an [astropy.units.Quantity] as an array together with a unit;
    - a raised exception as the [Raise] branch of [result]. *)

From Stdlib Require Import ZArith Floats.
From stdpp Require Import base countable strings list gmap.

Set Warnings "-inexact-float".

(** ** Dictionary keys *)

(** The hashable objects that occur as keys: the table is keyed by [str];
    the subscription [d[a, b]] builds the tuple [(a, b)] and uses it as key. *)
Inductive key :=
  | KStr (s : string)
  | KTuple (items : list string).

Global Instance key_eq_dec : EqDecision key.
Proof. solve_decision. Defined.

Definition key_encode (k : key) : string + list string :=
  match k with
  | KStr s => inl s
  | KTuple items => inr items
  end.

Definition key_decode (x : string + list string) : key :=
  match x with
  | inl s => KStr s
  | inr items => KTuple items
  end.

Global Instance key_countable : Countable key.
Proof.
  refine (inj_countable' key_encode key_decode _).
  by intros [].
Defined.

(** ** Exceptions and results *)

Inductive exn :=
  | KeyError (k : key)
  | TypeError.

(** [KeyError] is a subclass of [LookupError]; [TypeError] is not. *)
Definition is_LookupError (e : exn) : bool :=
  match e with
  | KeyError _ => true
  | TypeError => false
  end.

Inductive result (A : Type) :=
  | Ok (a : A)
  | Raise (e : exn).
Arguments Ok {A} a.
Arguments Raise {A} e.

Global Instance result_ret : MRet result := fun A a => Ok a.

Global Instance result_bind : MBind result := fun A B k r =>
  match r with
  | Ok a => k a
  | Raise e => Raise e
  end.

(** ** Numbers, arrays, units *)

(** A numeric literal of the table: [60] is an [int], [0.6] a [float]. *)
Inductive number :=
  | PyInt (z : Z)
  | PyFloat (f : float).

(** The binary64 nearest to an integer (round to nearest even). *)
Definition float_of_Z (z : Z) : float :=
  SF2Prim (binary_normalize prec emax z 0 false).

Definition number_to_float (n : number) : float :=
  match n with
  | PyInt z => float_of_Z z
  | PyFloat f => f
  end.

(** A one-dimensional float64 array. *)
Definition ndarray : Type := list float.

(** [c * a] for a Python scalar [c] and a float64 array [a]: the scalar is
    converted to float64 and multiplied into every element. *)
Definition scalar_mul (c : number) (a : ndarray) : ndarray :=
  map (PrimFloat.mul (number_to_float c)) a.

(** A unit built from the year: [year ^ year_power]. *)
Record unit_ := { year_power : Z }.

Definition units_year : unit_ := {| year_power := 1 |}.
Definition unit_inv (u : unit_) : unit_ := {| year_power := - year_power u |}.
Definition per_year : unit_ := unit_inv units_year.

Record Quantity := { q_value : ndarray; q_unit : unit_ }.

(** [a / u] for an array [a] and a unit [u]: the values of [a] with the
    inverse of [u] attached. *)
Definition truediv_unit (a : ndarray) (u : unit_) : Quantity :=
  {| q_value := a; q_unit := unit_inv u |}.

(** ** Objects stored in a dictionary *)

Inductive value :=
  | VNum (n : number)
  | VDict (d : gmap key number).

(** [d[k]]: the stored object, or [KeyError(k)]. *)
Definition getitem {V} (d : gmap key V) (k : key) : result V :=
  match d !! k with
  | Some v => Ok v
  | None => Raise (KeyError k)
  end.

(** ** The module *)

(** The literal of lines 74-85: a [dict] of three [dict]s. *)
Definition NS_NS_rates : gmap key number :=
  <[KStr "low" := PyFloat 0.6]>
  (<[KStr "realistic" := PyInt 60]>
  (<[KStr "high" := PyInt 600]>
  (<[KStr "max" := PyInt 2000]> ∅))).

Definition NS_BH_rates : gmap key number :=
  <[KStr "low" := PyFloat 0.03]>
  (<[KStr "realistic" := PyInt 2]>
  (<[KStr "high" := PyInt 60]> ∅)).

Definition BH_BH_rates : gmap key number :=
  <[KStr "low" := PyFloat 0.006]>
  (<[KStr "realistic" := PyFloat 0.2]>
  (<[KStr "high" := PyInt 20]> ∅)).

Definition abadie_tableIII_dict : gmap key value :=
  <[KStr "NS-NS" := VDict NS_NS_rates]>
  (<[KStr "NS-BH" := VDict NS_BH_rates]>
  (<[KStr "BH-BH" := VDict BH_BH_rates]> ∅)).

(** The defaults of the signature (lines 17-19). *)
Definition default_population : string := "NS-NS".
Definition default_optimism : string := "low".

Section merger_rate.

(** What numpy makes of [d * a] when [d] is a [dict] and not a number is
    not fixed by this module; it is left open. *)
Variable dict_mul : gmap key number -> ndarray -> result ndarray.

(** [v * a] for a stored object [v] and a float64 array [a]. *)
Definition value_mul (v : value) (a : ndarray) : result ndarray :=
  match v with
  | VNum c => Ok (scalar_mul c a)
  | VDict d => dict_mul d a
  end.

(** The body of the function (lines 87-90): the subscription
    [abadie_tableIII_dict[population, optimism]] looks the tuple
    [(population, optimism)] up in the outer dictionary. *)
Definition abadie_tableIII_merger_rates
    (luminosity : ndarray) (population optimism : string) : result Quantity :=
  coefficient ← getitem abadie_tableIII_dict (KTuple [population; optimism]);
  merger_rate ← value_mul coefficient luminosity;
  let merger_rate := truediv_unit merger_rate units_year in
  mret merger_rate.

(** A call of the function: an argument that is not passed takes its
    default. *)
Definition call_abadie_tableIII_merger_rates
    (luminosity : ndarray) (population optimism : option string) : result Quantity :=
  abadie_tableIII_merger_rates luminosity
    (default default_population population)
    (default default_optimism optimism).

End merger_rate.

(** ** The specification's estimator *)

Module Spec.

(** The coefficient table as the specification words it (section 4.1): a
    mapping from (population, optimism) pairs to a constant. *)
Definition coefficient_table : gmap key number :=
  <[KTuple ["NS-NS"; "low"] := PyFloat 0.6]>
  (<[KTuple ["NS-NS"; "realistic"] := PyInt 60]>
  (<[KTuple ["NS-NS"; "high"] := PyInt 600]>
  (<[KTuple ["NS-NS"; "max"] := PyInt 2000]>
  (<[KTuple ["NS-BH"; "low"] := PyFloat 0.03]>
  (<[KTuple ["NS-BH"; "realistic"] := PyInt 2]>
  (<[KTuple ["NS-BH"; "high"] := PyInt 60]>
  (<[KTuple ["BH-BH"; "low"] := PyFloat 0.006]>
  (<[KTuple ["BH-BH"; "realistic"] := PyFloat 0.2]>
  (<[KTuple ["BH-BH"; "high"] := PyInt 20]> ∅))))))))).

(** A valid (population, optimism) pair: a key of the table. *)
Definition valid_pair (population optimism : string) : bool :=
  bool_decide (is_Some (coefficient_table !! KTuple [population; optimism])).

(** [estimate_merger_rate] as the specification words it: look the pair up
    in the table, multiply every luminosity by the coefficient, attach the
    unit per year; an absent pair is a lookup error. *)
Definition estimate_merger_rate
    (luminosity : ndarray) (population optimism : string) : result Quantity :=
  coefficient ← getitem coefficient_table (KTuple [population; optimism]);
  mret {| q_value := scalar_mul coefficient luminosity; q_unit := per_year |}.

End Spec.

(** The nested subscription [abadie_tableIII_dict[population][optimism]];
    subscripting a number is a [TypeError]. *)
Definition nested_getitem (population optimism : string) : result number :=
  entry ← getitem abadie_tableIII_dict (KStr population);
  match entry with
  | VDict rates => getitem rates (KStr optimism)
  | VNum _ => Raise TypeError
  end.

(** The value of a result, when there is one. *)
Definition result_value {A} (r : result A) : option A :=
  match r with
  | Ok a => Some a
  | Raise _ => None
  end.

(** ** The documented choices *)

(** The choices the docstring documents for [population] (lines 31-35) and
    for [optimism] (lines 36-38): three populations, three optimisms, and
    the extra option "max" for "NS-NS". *)
Definition documented_populations : list string := ["NS-NS"; "NS-BH"; "BH-BH"].
Definition documented_optimisms : list string := ["low"; "realistic"; "high"].

Definition documented_choice (population optimism : string) : bool :=
  bool_decide (population ∈ documented_populations)
  && (bool_decide (optimism ∈ documented_optimisms)
      || bool_decide (population = "NS-NS" ∧ optimism = "max")).

(** * Properties *)

(** ** The tables *)

(** A tuple is never a key of the outer dictionary, whose keys are strings. *)
Lemma tuple_not_in_dict (items : list string) :
  abadie_tableIII_dict !! KTuple items = None.
Proof.
  unfold abadie_tableIII_dict.
  rewrite !lookup_insert_ne by discriminate.
  apply lookup_empty.
Qed.

(** The nested dictionaries of the source hold the specification's table:
    the two-level lookup finds exactly the table's coefficient. *)
Lemma nested_getitem_table (population optimism : string) :
  result_value (nested_getitem population optimism)
  = Spec.coefficient_table !! KTuple [population; optimism].
Proof.
  unfold nested_getitem, getitem, abadie_tableIII_dict, Spec.coefficient_table.
  destruct (decide (population = "NS-NS")) as [->|HNN];
    [|destruct (decide (population = "NS-BH")) as [->|HNB];
      [|destruct (decide (population = "BH-BH")) as [->|HBB]]].
  4: { rewrite !lookup_insert_ne by congruence. by rewrite !lookup_empty. }
  all: simplify_map_eq; cbn;
    unfold NS_NS_rates, NS_BH_rates, BH_BH_rates;
    destruct (decide (optimism = "low")) as [->|Hl]; [by simplify_map_eq|];
    destruct (decide (optimism = "realistic")) as [->|Hr]; [by simplify_map_eq|];
    destruct (decide (optimism = "high")) as [->|Hh]; [by simplify_map_eq|];
    destruct (decide (optimism = "max")) as [->|Hm]; [by simplify_map_eq|];
    rewrite !lookup_insert_ne by congruence; by rewrite !lookup_empty.
Qed.

(** ** The subscription of the function *)

(** The subscription with the tuple raises [KeyError] with that tuple. *)
Lemma getitem_tuple_raises (population optimism : string) :
  getitem abadie_tableIII_dict (KTuple [population; optimism])
  = Raise (KeyError (KTuple [population; optimism])).
Proof. unfold getitem. by rewrite tuple_not_in_dict. Qed.

Section merger_rate_facts.

Variable dict_mul : gmap key number -> ndarray -> result ndarray.

(** Hence the function raises before it multiplies anything. *)
Lemma merger_rates_raises (luminosity : ndarray) (population optimism : string) :
  abadie_tableIII_merger_rates dict_mul luminosity population optimism
  = Raise (KeyError (KTuple [population; optimism])).
Proof.
  unfold abadie_tableIII_merger_rates.
  by rewrite getitem_tuple_raises.
Qed.

Lemma call_merger_rates_raises
    (luminosity : ndarray) (population optimism : option string) :
  call_abadie_tableIII_merger_rates dict_mul luminosity population optimism
  = Raise (KeyError (KTuple [default default_population population;
                             default default_optimism optimism])).
Proof. apply merger_rates_raises. Qed.

(** ** The function against the specification's estimator *)

(** C1: for a pair of the table the result should be the luminosities
    multiplied by the coefficient, element by element. At [[1.0]], "NS-NS",
    "low" (a pair of the table, coefficient 0.6) the estimator of the
    specification returns the one-element sequence [[0.6 * 1.0]]; the
    function returns nothing and raises [KeyError]. *)
Theorem valid_pair_not_scaled :
  Spec.valid_pair "NS-NS" "low" = true
  /\ Spec.estimate_merger_rate [1.0%float] "NS-NS" "low"
     = Ok {| q_value := [(0.6 * 1.0)%float]; q_unit := per_year |}
  /\ abadie_tableIII_merger_rates dict_mul [1.0%float] "NS-NS" "low"
     = Raise (KeyError (KTuple ["NS-NS"; "low"])).
Proof.
  split; [by vm_compute|].
  split; [by vm_compute|].
  apply merger_rates_raises.
Qed.

(** C2: the function should fail exactly when the pair is not in the table.
    "NS-NS" with "low" is in the table, and is an entry of the nested
    dictionaries of the source, yet the function fails on it with a
    [KeyError], a [LookupError]. *)
Theorem valid_pair_raises_LookupError :
  Spec.valid_pair "NS-NS" "low" = true
  /\ nested_getitem "NS-NS" "low" = Ok (PyFloat 0.6)
  /\ exists e : exn,
       abadie_tableIII_merger_rates dict_mul [1.0%float] "NS-NS" "low" = Raise e
       /\ is_LookupError e = true.
Proof.
  split; [by vm_compute|].
  split; [by vm_compute|].
  eexists. split; [apply merger_rates_raises | done].
Qed.

(** C3: "max" should be accepted for "NS-NS" and rejected for "NS-BH". The
    estimator of the specification returns [[20000.0]] per year for
    [[10.0]], "NS-NS", "max"; the function raises [KeyError] for "NS-NS"
    just as it does for "NS-BH". *)
Theorem max_rejected_for_NS_NS :
  Spec.estimate_merger_rate [10.0%float] "NS-NS" "max"
  = Ok {| q_value := [20000.0%float]; q_unit := per_year |}
  /\ abadie_tableIII_merger_rates dict_mul [10.0%float] "NS-NS" "max"
     = Raise (KeyError (KTuple ["NS-NS"; "max"]))
  /\ abadie_tableIII_merger_rates dict_mul [10.0%float] "NS-BH" "max"
     = Raise (KeyError (KTuple ["NS-BH"; "max"])).
Proof.
  split; [by vm_compute|].
  split; apply merger_rates_raises.
Qed.

(** C4: the three worked examples of the specification. The estimator of
    the specification yields [[0.6]], [[40.0, 0.0]] and [[300.0]] per year;
    the function raises [KeyError] on each of the three calls. *)
Theorem worked_examples_raise :
  (Spec.estimate_merger_rate [1.0%float] "NS-NS" "low"
   = Ok {| q_value := [0.6%float]; q_unit := per_year |}
   /\ abadie_tableIII_merger_rates dict_mul [1.0%float] "NS-NS" "low"
      = Raise (KeyError (KTuple ["NS-NS"; "low"])))
  /\ (Spec.estimate_merger_rate [2.0%float; 0.0%float] "BH-BH" "high"
      = Ok {| q_value := [40.0%float; 0.0%float]; q_unit := per_year |}
      /\ abadie_tableIII_merger_rates dict_mul [2.0%float; 0.0%float] "BH-BH" "high"
         = Raise (KeyError (KTuple ["BH-BH"; "high"])))
  /\ (Spec.estimate_merger_rate [5.0%float] "NS-NS" "realistic"
      = Ok {| q_value := [300.0%float]; q_unit := per_year |}
      /\ abadie_tableIII_merger_rates dict_mul [5.0%float] "NS-NS" "realistic"
         = Raise (KeyError (KTuple ["NS-NS"; "realistic"]))).
Proof.
  repeat split; solve [by vm_compute | apply merger_rates_raises].
Qed.

(** C5: an empty luminosity sequence with a pair of the table should give
    an empty sequence and no error. The estimator of the specification
    does; the function raises [KeyError] on the empty sequence too. *)
Theorem empty_luminosity_raises :
  Spec.valid_pair "NS-BH" "high" = true
  /\ Spec.estimate_merger_rate [] "NS-BH" "high"
     = Ok {| q_value := []; q_unit := per_year |}
  /\ abadie_tableIII_merger_rates dict_mul [] "NS-BH" "high"
     = Raise (KeyError (KTuple ["NS-BH"; "high"])).
Proof.
  split; [by vm_compute|].
  split; [by vm_compute|].
  apply merger_rates_raises.
Qed.

(** C6: scaling the luminosities by [k] should scale the rates by [k]. For
    [k = 2], the luminosities [[1.0]] and the pair "BH-BH", "low" the
    estimator of the specification gives rates that scale; the function
    returns a rate for neither the scaled nor the unscaled luminosities. *)
Theorem scaling_has_no_rates :
  (exists rates : Quantity,
     Spec.estimate_merger_rate [1.0%float] "BH-BH" "low" = Ok rates
     /\ Spec.estimate_merger_rate (scalar_mul (PyFloat 2.0) [1.0%float]) "BH-BH" "low"
        = Ok {| q_value := scalar_mul (PyFloat 2.0) (q_value rates);
                q_unit := q_unit rates |})
  /\ result_value
       (abadie_tableIII_merger_rates dict_mul
          (scalar_mul (PyFloat 2.0) [1.0%float]) "BH-BH" "low") = None
  /\ result_value
       (abadie_tableIII_merger_rates dict_mul [1.0%float] "BH-BH" "low") = None.
Proof.
  split.
  - eexists. split; [by vm_compute|]. by vm_compute.
  - by rewrite !merger_rates_raises.
Qed.

(** C7: the returned sequence should carry the unit 1/year. For
    [[1.0, 2.0]], "BH-BH", "realistic" the estimator of the specification
    returns a quantity in year^-1; the function returns no quantity at
    all. *)
Theorem no_quantity_no_unit :
  (exists rates : Quantity,
     Spec.estimate_merger_rate [1.0%float; 2.0%float] "BH-BH" "realistic" = Ok rates
     /\ q_unit rates = {| year_power := -1 |})
  /\ result_value
       (abadie_tableIII_merger_rates dict_mul [1.0%float; 2.0%float]
          "BH-BH" "realistic") = None.
Proof.
  split.
  - eexists. split; [by vm_compute|]. done.
  - by rewrite merger_rates_raises.
Qed.

(** ** Defaults *)

(** C8: [optimism] defaults to "low": a call that does not pass it has the
    result of the call that passes "low", whatever the luminosities and
    whether or not [population] is passed; that result is the [KeyError]
    whose key ends in "low". *)
Theorem optimism_defaults_to_low
    (luminosity : ndarray) (population : option string) :
  call_abadie_tableIII_merger_rates dict_mul luminosity population None
  = call_abadie_tableIII_merger_rates dict_mul luminosity population (Some "low")
  /\ call_abadie_tableIII_merger_rates dict_mul luminosity population None
     = Raise (KeyError (KTuple [default "NS-NS" population; "low"])).
Proof.
  split; [reflexivity|].
  apply call_merger_rates_raises.
Qed.

(** C9: [population] defaults to "NS-NS": a call that does not pass it has
    the result of the call that passes "NS-NS", whatever the luminosities
    and whether or not [optimism] is passed; that result is the [KeyError]
    whose key starts with "NS-NS". *)
Theorem population_defaults_to_NS_NS
    (luminosity : ndarray) (optimism : option string) :
  call_abadie_tableIII_merger_rates dict_mul luminosity None optimism
  = call_abadie_tableIII_merger_rates dict_mul luminosity (Some "NS-NS") optimism
  /\ call_abadie_tableIII_merger_rates dict_mul luminosity None optimism
     = Raise (KeyError (KTuple ["NS-NS"; default "low" optimism])).
Proof.
  split; [reflexivity|].
  apply call_merger_rates_raises.
Qed.

(** ** The composite key *)

(** C10: the function subscripts the outer dictionary with the tuple
    (population, optimism), which is not one of its keys, where the nested
    subscription would find the coefficient of every pair of the table.
    So for all luminosities and all strings the function raises
    [KeyError] and returns no rate. *)
Theorem composite_key_always_raises
    (luminosity : ndarray) (population optimism : string) :
  abadie_tableIII_dict !! KTuple [population; optimism] = None
  /\ result_value (nested_getitem population optimism)
     = Spec.coefficient_table !! KTuple [population; optimism]
  /\ abadie_tableIII_merger_rates dict_mul luminosity population optimism
     = Raise (KeyError (KTuple [population; optimism]))
  /\ result_value
       (abadie_tableIII_merger_rates dict_mul luminosity population optimism)
     = None.
Proof.
  split; [apply tuple_not_in_dict|].
  split; [apply nested_getitem_table|].
  rewrite merger_rates_raises. done.
Qed.

End merger_rate_facts.

(** ** Rounding *)

(** In binary64 the estimator of the specification is homogeneous only up
    to rounding: with the coefficient 0.6, [0.6 * (3 * 0.1)] is
    0.18000000000000002 and [3 * (0.6 * 0.1)] is 0.18. *)
Example estimate_scaling_rounds :
  q_value <$> result_value
    (Spec.estimate_merger_rate (scalar_mul (PyInt 3) [0.1%float]) "NS-NS" "low")
  <> scalar_mul (PyInt 3) <$> (q_value <$> result_value
       (Spec.estimate_merger_rate [0.1%float] "NS-NS" "low")).
Proof.
  intros Heq.
  apply (f_equal (fun o => match o with
                           | Some [x] => PrimFloat.eqb x 0.18
                           | _ => false
                           end)) in Heq.
  vm_compute in Heq. discriminate.
Qed.

(** * The table literal *)

(** Inversion of a lookup in a dictionary literal: the key is one of the
    literal's keys and the object is the one written next to it. *)
Lemma dict_lookup_inv (k : key) (v : value) :
  abadie_tableIII_dict !! k = Some v ->
  (k = KStr "NS-NS" /\ v = VDict NS_NS_rates)
  \/ (k = KStr "NS-BH" /\ v = VDict NS_BH_rates)
  \/ (k = KStr "BH-BH" /\ v = VDict BH_BH_rates).
Proof.
  unfold abadie_tableIII_dict. intros H.
  apply lookup_insert_Some in H as [[<- <-]|[_ H]]; [by left|].
  apply lookup_insert_Some in H as [[<- <-]|[_ H]]; [by right; left|].
  apply lookup_insert_Some in H as [[<- <-]|[_ H]]; [by right; right|].
  by rewrite lookup_empty in H.
Qed.

Lemma NS_NS_rates_inv (k : key) (c : number) :
  NS_NS_rates !! k = Some c ->
  (k = KStr "low" /\ c = PyFloat 0.6)
  \/ (k = KStr "realistic" /\ c = PyInt 60)
  \/ (k = KStr "high" /\ c = PyInt 600)
  \/ (k = KStr "max" /\ c = PyInt 2000).
Proof.
  unfold NS_NS_rates. intros H.
  apply lookup_insert_Some in H as [[<- <-]|[_ H]]; [by left|].
  apply lookup_insert_Some in H as [[<- <-]|[_ H]]; [by right; left|].
  apply lookup_insert_Some in H as [[<- <-]|[_ H]]; [by right; right; left|].
  apply lookup_insert_Some in H as [[<- <-]|[_ H]]; [by right; right; right|].
  by rewrite lookup_empty in H.
Qed.

Lemma NS_BH_rates_inv (k : key) (c : number) :
  NS_BH_rates !! k = Some c ->
  (k = KStr "low" /\ c = PyFloat 0.03)
  \/ (k = KStr "realistic" /\ c = PyInt 2)
  \/ (k = KStr "high" /\ c = PyInt 60).
Proof.
  unfold NS_BH_rates. intros H.
  apply lookup_insert_Some in H as [[<- <-]|[_ H]]; [by left|].
  apply lookup_insert_Some in H as [[<- <-]|[_ H]]; [by right; left|].
  apply lookup_insert_Some in H as [[<- <-]|[_ H]]; [by right; right|].
  by rewrite lookup_empty in H.
Qed.

Lemma BH_BH_rates_inv (k : key) (c : number) :
  BH_BH_rates !! k = Some c ->
  (k = KStr "low" /\ c = PyFloat 0.006)
  \/ (k = KStr "realistic" /\ c = PyFloat 0.2)
  \/ (k = KStr "high" /\ c = PyInt 20).
Proof.
  unfold BH_BH_rates. intros H.
  apply lookup_insert_Some in H as [[<- <-]|[_ H]]; [by left|].
  apply lookup_insert_Some in H as [[<- <-]|[_ H]]; [by right; left|].
  apply lookup_insert_Some in H as [[<- <-]|[_ H]]; [by right; right|].
  by rewrite lookup_empty in H.
Qed.

(** A lookup of a key that the literal has. *)
Ltac literal_lookup :=
  unfold abadie_tableIII_dict, NS_NS_rates, NS_BH_rates, BH_BH_rates;
  repeat (rewrite lookup_insert_ne by (intros [=]));
  apply lookup_insert_eq.

(** X1: the table holds a coefficient under [population] and then
    [optimism] exactly for the choices the docstring documents: the three
    populations with "low", "realistic" and "high", and "NS-NS" with
    "max". *)
Theorem table_holds_documented_choices (population optimism : string) :
  (exists (rates : gmap key number) (c : number),
     abadie_tableIII_dict !! KStr population = Some (VDict rates)
     /\ rates !! KStr optimism = Some c)
  <-> documented_choice population optimism = true.
Proof.
  split.
  - intros (rates & c & Hp & Ho).
    apply dict_lookup_inv in Hp as [[Hk Hv]|[[Hk Hv]|[Hk Hv]]];
      simplify_eq.
    + apply NS_NS_rates_inv in Ho as [[Hk _]|[[Hk _]|[[Hk _]|[Hk _]]]];
        simplify_eq; vm_compute; reflexivity.
    + apply NS_BH_rates_inv in Ho as [[Hk _]|[[Hk _]|[Hk _]]];
        simplify_eq; vm_compute; reflexivity.
    + apply BH_BH_rates_inv in Ho as [[Hk _]|[[Hk _]|[Hk _]]];
        simplify_eq; vm_compute; reflexivity.
  - unfold documented_choice, documented_populations, documented_optimisms.
    intros [Hp Ho]%andb_prop.
    apply bool_decide_eq_true in Hp.
    apply orb_prop in Ho as [Ho|Ho]; apply bool_decide_eq_true in Ho.
    + rewrite !elem_of_cons, elem_of_nil in Hp.
      rewrite !elem_of_cons, elem_of_nil in Ho.
      destruct Hp as [->|[->|[->|[]]]];
        destruct Ho as [->|[->|[->|[]]]];
        (eexists _, _; split; [literal_lookup|]); literal_lookup.
    + destruct Ho as [-> ->].
      eexists _, _; split; [literal_lookup|]. literal_lookup.
Qed.

(** X2: every coefficient of the table, whichever dictionary and key it is
    stored under, is a finite number greater than zero. *)
Theorem coefficients_positive_finite
    (population optimism : key) (rates : gmap key number) (c : number) :
  abadie_tableIII_dict !! population = Some (VDict rates) ->
  rates !! optimism = Some c ->
  PrimFloat.ltb 0 (number_to_float c) = true
  /\ PrimFloat.is_finite (number_to_float c) = true.
Proof.
  intros Hp Ho.
  apply dict_lookup_inv in Hp as [[_ Hv]|[[_ Hv]|[_ Hv]]]; simplify_eq.
  - apply NS_NS_rates_inv in Ho as [[_ ->]|[[_ ->]|[[_ ->]|[_ ->]]]];
      by vm_compute.
  - apply NS_BH_rates_inv in Ho as [[_ ->]|[[_ ->]|[_ ->]]]; by vm_compute.
  - apply BH_BH_rates_inv in Ho as [[_ ->]|[[_ ->]|[_ ->]]]; by vm_compute.
Qed.

Lemma coefficients_positive_finite_witness :
  abadie_tableIII_dict !! KStr "NS-BH" = Some (VDict NS_BH_rates)
  /\ NS_BH_rates !! KStr "low" = Some (PyFloat 0.03)
  /\ PrimFloat.ltb 0 (number_to_float (PyFloat 0.03)) = true
  /\ PrimFloat.is_finite (number_to_float (PyFloat 0.03)) = true.
Proof.
  split; [vm_compute; reflexivity|].
  split; [vm_compute; reflexivity|].
  apply (coefficients_positive_finite (KStr "NS-BH") (KStr "low") NS_BH_rates);
    vm_compute; reflexivity.
Defined.

(** X3: in every dictionary of the table the coefficients grow with the
    optimism: "low", "realistic" and "high" are all present with
    low < realistic < high, and a "max" entry, where there is one, is
    greater than "high". *)
Theorem rates_increase_with_optimism
    (population : key) (rates : gmap key number) :
  abadie_tableIII_dict !! population = Some (VDict rates) ->
  exists low realistic high : number,
    rates !! KStr "low" = Some low
    /\ rates !! KStr "realistic" = Some realistic
    /\ rates !! KStr "high" = Some high
    /\ PrimFloat.ltb (number_to_float low) (number_to_float realistic) = true
    /\ PrimFloat.ltb (number_to_float realistic) (number_to_float high) = true
    /\ forall most : number,
         rates !! KStr "max" = Some most ->
         PrimFloat.ltb (number_to_float high) (number_to_float most) = true.
Proof.
  intros Hp.
  apply dict_lookup_inv in Hp as [[_ Hv]|[[_ Hv]|[_ Hv]]]; simplify_eq.
  - exists (PyFloat 0.6), (PyInt 60), (PyInt 600).
    repeat (split; [by vm_compute|]).
    intros most Hm.
    apply NS_NS_rates_inv in Hm as [[Hk _]|[[Hk _]|[[Hk _]|[_ ->]]]];
      by simplify_eq.
  - exists (PyFloat 0.03), (PyInt 2), (PyInt 60).
    repeat (split; [by vm_compute|]).
    intros most Hm.
    apply NS_BH_rates_inv in Hm as [[Hk _]|[[Hk _]|[Hk _]]]; by simplify_eq.
  - exists (PyFloat 0.006), (PyFloat 0.2), (PyInt 20).
    repeat (split; [by vm_compute|]).
    intros most Hm.
    apply BH_BH_rates_inv in Hm as [[Hk _]|[[Hk _]|[Hk _]]]; by simplify_eq.
Qed.

Lemma rates_increase_with_optimism_witness :
  abadie_tableIII_dict !! KStr "NS-NS" = Some (VDict NS_NS_rates)
  /\ exists low realistic high : number,
       NS_NS_rates !! KStr "low" = Some low
       /\ NS_NS_rates !! KStr "realistic" = Some realistic
       /\ NS_NS_rates !! KStr "high" = Some high
       /\ PrimFloat.ltb (number_to_float low) (number_to_float realistic) = true
       /\ PrimFloat.ltb (number_to_float realistic) (number_to_float high) = true
       /\ forall most : number,
            NS_NS_rates !! KStr "max" = Some most ->
            PrimFloat.ltb (number_to_float high) (number_to_float most) = true.
Proof.
  split; [vm_compute; reflexivity|].
  apply (rates_increase_with_optimism (KStr "NS-NS") NS_NS_rates).
  vm_compute; reflexivity.
Defined.

(** * What the outcome depends on *)

(** X4: the outcome of the function is determined by [population] and
    [optimism] alone: two calls have the same outcome exactly when they
    pass the same population and the same optimism, whatever luminosities
    they pass and whatever the multiplication would do. *)
Theorem outcome_ignores_luminosity
    (dict_mul1 dict_mul2 : gmap key number -> ndarray -> result ndarray)
    (luminosity1 luminosity2 : ndarray)
    (population1 optimism1 population2 optimism2 : string) :
  abadie_tableIII_merger_rates dict_mul1 luminosity1 population1 optimism1
  = abadie_tableIII_merger_rates dict_mul2 luminosity2 population2 optimism2
  <-> population1 = population2 /\ optimism1 = optimism2.
Proof.
  rewrite !merger_rates_raises.
  split.
  - intros Heq. by simplify_eq.
  - by intros [-> ->].
Qed.

(** X5: one subscription of the table never yields a number: whatever the
    key, a subscription that succeeds has a string for key and yields one
    of the three dictionaries. *)
Theorem single_subscription_yields_dict (k : key) (v : value) :
  getitem abadie_tableIII_dict k = Ok v ->
  exists (population : string) (rates : gmap key number),
    k = KStr population
    /\ v = VDict rates
    /\ population ∈ documented_populations.
Proof.
  unfold getitem. intros Hget.
  destruct (abadie_tableIII_dict !! k) as [v'|] eqn:Hk; [|discriminate Hget].
  injection Hget as ->.
  unfold documented_populations.
  apply dict_lookup_inv in Hk as [[-> ->]|[[-> ->]|[-> ->]]];
    eexists _, _; (split; [reflexivity|]); (split; [reflexivity|]);
    rewrite !elem_of_cons; tauto.
Qed.

Lemma single_subscription_yields_dict_witness :
  getitem abadie_tableIII_dict (KStr "BH-BH") = Ok (VDict BH_BH_rates)
  /\ exists (population : string) (rates : gmap key number),
       KStr "BH-BH" = KStr population
       /\ VDict BH_BH_rates = VDict rates
       /\ population ∈ documented_populations.
Proof.
  split; [vm_compute; reflexivity|].
  apply (single_subscription_yields_dict (KStr "BH-BH") (VDict BH_BH_rates)).
  vm_compute; reflexivity.
Defined.
